(** * Eco-Trekker: the [/calculate] request handler of [eco_trekker.py]

    A shallow embedding of the carbon-footprint handler and of the module-level
    table [EMISSION_FACTORS] it reads, with the properties its specification
    states about them.

    [calculate form] is the handler from the point where [request.form] has
    been read as [form]; [calculate_request] is the whole view function,
    in which reading the form is the first step of the [try] block and may
    itself raise.

    Python [float] is IEEE 754 binary64 with round-to-nearest-even, which is
    what Rocq's primitive [float] computes with, so products such as
    [100 * 0.120] are evaluated with the rounding the program performs.
    Python [int] is unbounded and is modelled by [Z]. *)

From Stdlib Require Import ZArith Ascii PrimFloat SpecFloat FloatOps FloatAxioms.
From stdpp Require Import gmap strings pretty.

Set Warnings "-inexact-float".
Local Open Scope Z_scope.

(** ** Python values and exceptions *)

Module Py.

(** The exceptions that can be raised while the handler runs: the two its
    own code can raise, and the one Werkzeug raises when it refuses a body
    (an [HTTPException] with code 413). All are subclasses of [Exception].
    [str(e)] of an exception built from one argument is that argument;
    [str(e)] of an [HTTPException] is its code, name and description. *)
Inductive exn : Type :=
| ValueError (msg : string)
| OverflowError (msg : string)
| RequestEntityTooLarge.

Definition str (e : exn) : string :=
  match e with
  | ValueError msg => msg
  | OverflowError msg => msg
  | RequestEntityTooLarge =>
      "413 Request Entity Too Large: The data value transmitted exceeds the capacity limit."
  end.

(** What evaluating an expression or running a block gives. *)
Inductive outcome (A : Type) : Type :=
| Returns (a : A)
| Raises (e : exn).
Arguments Returns {A} a.
Arguments Raises {A} e.

(** A number is an [int] or a [float]. *)
Inductive number : Type :=
| PyInt (z : Z)
| PyFloat (f : float).

(** [float(z)] for an [int]: the nearest binary64 value, ties to even, and
    [OverflowError] when that value is not finite. *)
Definition float_of_int (z : Z) : outcome float :=
  match binary_normalize prec emax z 0 false with
  | S754_infinity _ => Raises (OverflowError "int too large to convert to float")
  | sf => Returns (SF2Prim sf)
  end.

(** [d * f] where [f] is a [float]: an [int] on the left is converted
    first, then the product is the binary64 product. *)
Definition mul_float (d : number) (f : float) : outcome float :=
  match d with
  | PyFloat x => Returns (x * f)%float
  | PyInt z =>
      match float_of_int z with
      | Returns x => Returns (x * f)%float
      | Raises e => Raises e
      end
  end.

(** Truth value of what [request.form.get] returns: [None] and the empty
    string are false, every other string is true. *)
Definition truthy (v : option string) : bool :=
  match v with
  | None => false
  | Some s => negb (String.eqb s "")
  end.

(** [d.get(k, default)] on a dictionary with string keys; [None] is never
    one of its keys. *)
Definition dict_get {V : Type} (d : gmap string V) (k : option string) (default : V) : V :=
  match k with
  | Some key => match d !! key with Some v => v | None => default end
  | None => default
  end.

End Py.
Export Py.

(** ** The Flask boundary *)

Module Flask.

(** [request.form] is a multi-dictionary: the submitted fields in order,
    a key possibly more than once. *)
Definition MultiDict : Type := list (string * string).

(** [form.get(key)]: the first value submitted under [key], [None] when
    there is none. *)
Fixpoint form_get (key : string) (form : MultiDict) : option string :=
  match form with
  | [] => None
  | (k, v) :: rest => if String.eqb k key then Some v else form_get key rest
  end.

(** The values the handler puts in a response. *)
Inductive json : Type :=
| JNull
| JStr (s : string)
| JInt (z : Z)
| JFloat (f : float).

Definition json_of_field (v : option string) : json :=
  match v with
  | None => JNull
  | Some s => JStr s
  end.

(** [jsonify(d)] answers with the JSON object of [d]; a response is
    identified with that object. *)
Definition jsonify (d : gmap string json) : gmap string json := d.

End Flask.
Export Flask.

(** ** Module state and the monad of handler code *)

(** The module's only global besides [app]. *)
Record globals : Type := { EMISSION_FACTORS : gmap string float }.

(** The table as the module body builds it. *)
Definition module_globals : globals :=
  {| EMISSION_FACTORS :=
       {[ "car" := 0.120%float;
          "bus" := 0.068%float;
          "train" := 0.045%float;
          "bicycle" := 0.0%float;
          "walking" := 0.0%float ]} |}.

(** Code runs against the globals and either returns or raises. *)
Definition M (A : Type) : Type := globals -> globals * outcome A.

Definition run {A : Type} (c : M A) (g : globals) : globals * outcome A := c g.

#[export] Instance M_ret : MRet M := fun A a g => (g, Returns a).

#[export] Instance M_bind : MBind M := fun A B k c g =>
  match c g with
  | (g', Returns a) => k a g'
  | (g', Raises e) => (g', Raises e)
  end.

Definition raise {A : Type} (e : exn) : M A := fun g => (g, Raises e).

Definition lift {A : Type} (o : outcome A) : M A := fun g => (g, o).

(** Reading the global name [EMISSION_FACTORS]. *)
Definition load_EMISSION_FACTORS : M (gmap string float) :=
  fun g => (g, Returns (EMISSION_FACTORS g)).

(** [try: body except Exception as e: handler e]. Every [exn] is an
    [Exception]. *)
Definition try_except {A : Type} (body : M A) (handler : exn -> M A) : M A :=
  fun g =>
    match body g with
    | (g', Returns a) => (g', Returns a)
    | (g', Raises e) => handler e g'
    end.

(** ** The handler *)

(** The estimator is the expression
    [distance * EMISSION_FACTORS.get(mode, 0.0)] of [calculate], as a
    function of [mode] and [distance]. *)
Definition estimate (mode : option string) (distance : number) : M float :=
  factors ← load_EMISSION_FACTORS;
  lift (mul_float distance (dict_get factors mode 0.0%float)).

(** The [try] block of [calculate] from the point where [request.form]
    has evaluated to [form]. *)
Definition calculate_try (form : MultiDict) : M (gmap string json) :=
  let start := form_get "start" form in
  let end_ := form_get "end" form in
  let mode := form_get "mode" form in
  _ ← (if negb (truthy start) || negb (truthy end_) || negb (truthy mode)
       then raise (ValueError "Missing required inputs!")
       else mret ());
  let distance := 100 in
  carbon_footprint ← estimate mode (PyInt distance);
  mret (jsonify {[ "start" := json_of_field start;
                   "end" := json_of_field end_;
                   "mode" := json_of_field mode;
                   "distance" := JInt distance;
                   "carbon_footprint" := JFloat carbon_footprint ]}).

(** Its [except Exception as e] block. *)
Definition calculate_except (e : exn) : M (gmap string json) :=
  mret (jsonify {[ "error" := JStr (str e) ]}).

(** The handler on a request whose form Werkzeug has read as [form]. *)
Definition calculate (form : MultiDict) : M (gmap string json) :=
  try_except (calculate_try form) calculate_except.

(** ** Reading the form *)

Module Werkzeug.

Inductive enctype : Type :=
| UrlEncoded
| MultipartFormData.

(** A POST to [/calculate]: how its body is encoded, the text fields the
    body carries, in order, and whether the body is larger than a limit on
    its size in bytes that is in force (which bodies are depends on the
    Werkzeug version; the application configures none). *)
Record Request : Type :=
  { content_type : enctype;
    parts : list (string * string);
    body_too_large : bool }.

(** The default of [MAX_FORM_PARTS]. *)
Definition max_form_parts : nat := 1000.

(** Evaluating [request.form], which parses the body the first time: a
    multipart body of more than [max_form_parts] parts, or a body over a
    size limit, is refused with [RequestEntityTooLarge]; otherwise the
    fields are returned as they were sent. *)
Definition request_form (req : Request) : outcome MultiDict :=
  let too_many_parts :=
    match content_type req with
    | MultipartFormData => Nat.ltb max_form_parts (length (parts req))
    | UrlEncoded => false
    end in
  if body_too_large req || too_many_parts
  then Raises RequestEntityTooLarge
  else Returns (parts req).

End Werkzeug.
Export Werkzeug.

(** The [try] block of [calculate] from its first line: [request.form] is
    evaluated inside it, at line 33, and what it raises is raised there. *)
Definition calculate_request_try (req : Request) : M (gmap string json) :=
  form ← lift (request_form req);
  calculate_try form.

(** The view function [calculate] on a request. *)
Definition calculate_request (req : Request) : M (gmap string json) :=
  try_except (calculate_request_try req) calculate_except.

(** A multipart request that carries [start], [end] and [mode], all
    non-empty, and 998 further fields: 1001 parts. *)
Definition crowded_request : Request :=
  {| content_type := MultipartFormData;
     parts := [("start", "Porto"); ("end", "Faro"); ("mode", "car")]
                ++ replicate 998 ("note", "x");
     body_too_large := false |}.

(** ** What the specification calls things *)

(** The factor table as the specification lists it, in kg CO2 per km. *)
Definition recognized_modes : list (string * float) :=
  [ ("car", 0.120%float); ("bus", 0.068%float); ("train", 0.045%float);
    ("bicycle", 0.0%float); ("walking", 0.0%float) ].

(** A distance that is not negative. *)
Definition non_negative (d : number) : Prop :=
  match d with
  | PyInt z => 0 ≤ z
  | PyFloat x => (0 <=? x)%float = true
  end.

(** The float [x] has exactly the value of the integer [z]: a finite [x] is
    [m * 2^e] with the sign [s]. *)
Definition is_int (x : float) (z : Z) : Prop :=
  match Prim2SF x with
  | S754_zero _ => z = 0
  | S754_finite s m e =>
      cond_Zopp s (Z.pos m) * 2 ^ Z.max e 0 = z * 2 ^ Z.max (- e) 0
  | _ => False
  end.

(** A field is missing when it was not submitted or was submitted empty. *)
Definition absent_or_empty (v : option string) : Prop := v = None ∨ v = Some "".

Definition missing_input (form : MultiDict) : Prop :=
  absent_or_empty (form_get "start" form) ∨
  absent_or_empty (form_get "end" form) ∨
  absent_or_empty (form_get "mode" form).

(** The two shapes of a response, by the fields present. *)
Definition success_shape (r : gmap string json) : Prop :=
  dom r = {[ "start"; "end"; "mode"; "distance"; "carbon_footprint" ]}.

Definition error_shape (r : gmap string json) : Prop :=
  ∃ msg : string, r = {[ "error" := JStr msg ]}.

(** The response the handler builds when validation passes. *)
Definition success_response (start end_ mode : option string) (cf : float) : gmap string json :=
  {[ "start" := json_of_field start;
     "end" := json_of_field end_;
     "mode" := json_of_field mode;
     "distance" := JInt 100;
     "carbon_footprint" := JFloat cf ]}.

Definition error_response (msg : string) : gmap string json :=
  {[ "error" := JStr msg ]}.

(** Letter case and surrounding whitespace of a mode string (ASCII). *)
Definition lower_ascii (c : Ascii.ascii) : Ascii.ascii :=
  if Ascii.leb "A"%char c && Ascii.leb c "Z"%char
  then Ascii.ascii_of_nat (Ascii.nat_of_ascii c + 32)
  else c.

Fixpoint lower (s : string) : string :=
  match s with
  | EmptyString => EmptyString
  | String c s' => String (lower_ascii c) (lower s')
  end.

Fixpoint lstrip (s : string) : string :=
  match s with
  | EmptyString => EmptyString
  | String c s' => if Ascii.is_space c then lstrip s' else s
  end.

Definition strip (s : string) : string :=
  String.rev (lstrip (String.rev (lstrip s))).

Definition canonical_mode (s : string) : string := lower (strip s).

(** ** The page: the form and the script of [templates/index.html] *)

Module Page.

(** The [value]s of the [option]s of the [mode] select. *)
Definition mode_options : list string :=
  ["car"; "bus"; "train"; "bicycle"; "walking"].

(** [new URLSearchParams(new FormData(event.target))]: the three controls
    of [routeForm] in document order. *)
Definition form_data (start end_ mode : string) : MultiDict :=
  [("start", start); ("end", end_); ("mode", mode)].

(** How evaluating a piece of the script ends: normally, by throwing (the
    only throw the callback can make is a [TypeError]), or in a way that
    is not modelled here. *)
Inductive completion (A : Type) : Type :=
| Normal (a : A)
| TypeError
| NotModelled.
Arguments Normal {A} a.
Arguments TypeError {A}.
Arguments NotModelled {A}.

#[export] Instance completion_ret : MRet completion := fun A a => Normal a.

#[export] Instance completion_bind : MBind completion := fun A B k c =>
  match c with
  | Normal a => k a
  | TypeError => TypeError
  | NotModelled => NotModelled
  end.

(** [data] is what [response.json()] parses out of the body [jsonify]
    wrote: the same object, an [int] or [float] of the handler being a
    Number. A property that is absent reads as [undefined], here [None]. *)

(** [ToBoolean], the test of [if (data.error)]. *)
Definition ToBoolean (v : option json) : bool :=
  match v with
  | None => false
  | Some JNull => false
  | Some (JStr s) => negb (String.eqb s "")
  | Some (JInt z) => negb (z =? 0)
  | Some (JFloat f) => negb (is_zero f || is_nan f)
  end.

(** [ToString], applied to each [${...}] of a template literal. Integers
    up to 2^53 in absolute value print in decimal; other Numbers are not
    modelled. *)
Definition ToString (v : option json) : completion string :=
  match v with
  | None => Normal "undefined"
  | Some JNull => Normal "null"
  | Some (JStr s) => Normal s
  | Some (JInt z) => if Z.abs z <=? 2 ^ 53 then Normal (pretty z) else NotModelled
  | Some (JFloat _) => NotModelled
  end.

Definition two_digits (r : Z) : string :=
  if r <? 10 then "0" +:+ pretty r else pretty r.

(** The decimal digits of [n], at least three of them, with a point before
    the last two. *)
Definition fixed2_digits (n : Z) : string :=
  pretty (n / 100) +:+ "." +:+ two_digits (n mod 100).

(** [x.toFixed(2)] for a Number [x]. A finite [x] is [m * 2^e] exactly; the
    digits are those of the integer [n] nearest to [100 * |x|], the larger
    one on a tie, after the sign of a negative [x]. From 10^21 on the result
    is in exponent notation, which is not modelled. *)
Definition toFixed2 (x : float) : option string :=
  match Prim2SF x with
  | S754_nan => Some "NaN"
  | S754_infinity s => Some (if s then "-Infinity" else "Infinity")
  | S754_zero _ => Some "0.00"
  | S754_finite s m e =>
      let num := Z.pos m * 2 ^ Z.max e 0 in
      let den := 2 ^ Z.max (- e) 0 in
      if 10 ^ 21 * den <=? num then None
      else Some ((if s then "-" else "") +:+ fixed2_digits ((200 * num + den) / (2 * den)))
  end.

(** The Number a JSON number parses to. *)
Definition Number_of_int (z : Z) : float :=
  SF2Prim (binary_normalize prec emax z 0 false).

(** [v.toFixed(2)]: reading [toFixed] off [undefined] or [null] throws, and
    so does calling it on a string, which has no such method. *)
Definition call_toFixed2 (v : option json) : completion string :=
  match v with
  | None | Some JNull | Some (JStr _) => TypeError
  | Some (JInt z) =>
      match toFixed2 (Number_of_int z) with Some s => Normal s | None => NotModelled end
  | Some (JFloat f) =>
      match toFixed2 f with Some s => Normal s | None => NotModelled end
  end.

Definition newline : string := String (ascii_of_nat 10) "".

Definition indent (n : nat) : string := String.concat "" (replicate n " ").

(** The template literal of the [else] branch. *)
Definition result_html (start end_ mode distance footprint : string) : string :=
  newline +:+
  indent 24 +:+ "Start: " +:+ start +:+ "<br>" +:+ newline +:+
  indent 24 +:+ "End: " +:+ end_ +:+ "<br>" +:+ newline +:+
  indent 24 +:+ "Mode: " +:+ mode +:+ "<br>" +:+ newline +:+
  indent 24 +:+ "Distance: " +:+ distance +:+ " km<br>" +:+ newline +:+
  indent 24 +:+ "Estimated Carbon Footprint: " +:+ footprint +:+ " kg CO2" +:+ newline +:+
  indent 20.

(** The callback [data => { ... }]: what it assigns to the [innerHTML] of
    [result]. *)
Definition on_data (data : gmap string json) : completion string :=
  if ToBoolean (data !! "error")
  then
    error ← ToString (data !! "error");
    mret ("Error: " +:+ error)
  else
    start ← ToString (data !! "start");
    end_ ← ToString (data !! "end");
    mode ← ToString (data !! "mode");
    distance ← ToString (data !! "distance");
    footprint ← call_toFixed2 (data !! "carbon_footprint");
    mret (result_html start end_ mode distance footprint).

(** The [.catch] callback. *)
Definition on_error : string := "Error in calculation process!".

(** The promise chain on a parsed response: the [innerHTML] of [result]
    once it has settled, [None] when that is not modelled. *)
Definition innerHTML (data : gmap string json) : option string :=
  match on_data data with
  | Normal html => Some html
  | TypeError => Some on_error
  | NotModelled => None
  end.

End Page.
Export Page.

(** Submitting [form] to [/calculate] and showing the answer. A handler
    that raised would be answered by an error page, which is not JSON, so
    [response.json()] rejects and [.catch] runs. *)
Definition submit (form : MultiDict) (g : globals) : option string :=
  match run (calculate form) g with
  | (_, Returns data) => innerHTML data
  | (_, Raises _) => Some on_error
  end.

(** The fields [calculate] reads. *)
Definition fields : list string := ["start"; "end"; "mode"].

(** The footprint of 100 km by mode, as binary64 values. *)
Definition footprint_of_mode (mode : string) : float :=
  if decide (mode = "car") then 12.0%float
  else if decide (mode = "bus") then 6.800000000000001%float
  else if decide (mode = "train") then 4.5%float
  else 0.0%float.

(** The same, as the page prints them. *)
Definition footprint_text (mode : string) : string :=
  if decide (mode = "car") then "12.00"
  else if decide (mode = "bus") then "6.80"
  else if decide (mode = "train") then "4.50"
  else "0.00".

(** ** Running the monad *)

Section Running.

Context {A B : Type}.

Lemma run_ret (a : A) g : run (mret a) g = (g, Returns a).
Proof. reflexivity. Qed.

Lemma run_raise (e : exn) g : run (raise (A:=A) e) g = (g, Raises e).
Proof. reflexivity. Qed.

Lemma run_bind_returns (c : M A) (k : A → M B) g g' a :
  run c g = (g', Returns a) → run (c ≫= k) g = run (k a) g'.
Proof. unfold run, mbind, M_bind. intros ->. reflexivity. Qed.

Lemma run_bind_raises (c : M A) (k : A → M B) g g' e :
  run c g = (g', Raises e) → run (c ≫= k) g = (g', Raises e).
Proof. unfold run, mbind, M_bind. intros ->. reflexivity. Qed.

Lemma run_try_returns (body : M A) handler g g' a :
  run body g = (g', Returns a) → run (try_except body handler) g = (g', Returns a).
Proof. unfold run, try_except. intros ->. reflexivity. Qed.

Lemma run_try_raises (body : M A) handler g g' e :
  run body g = (g', Raises e) → run (try_except body handler) g = run (handler e) g'.
Proof. unfold run, try_except. intros ->. reflexivity. Qed.

End Running.

(** ** The factor table *)

Lemma factors_lookup (m : string) :
  EMISSION_FACTORS module_globals !! m =
    if decide (m = "car") then Some 0.120%float
    else if decide (m = "bus") then Some 0.068%float
    else if decide (m = "train") then Some 0.045%float
    else if decide (m = "bicycle") then Some 0.0%float
    else if decide (m = "walking") then Some 0.0%float
    else None.
Proof.
  unfold module_globals; simpl.
  repeat (case_decide; [subst m; reflexivity |]).
  rewrite !lookup_insert_ne by congruence.
  apply lookup_singleton_ne; congruence.
Qed.

Lemma factors_dom :
  dom (EMISSION_FACTORS module_globals) = {[ "car"; "bus"; "train"; "bicycle"; "walking" ]}.
Proof.
  unfold module_globals; simpl.
  rewrite !dom_insert_L, dom_singleton_L. set_solver.
Qed.

Lemma factors_unrecognized (m : string) :
  m ∉ dom (EMISSION_FACTORS module_globals) →
  dict_get (EMISSION_FACTORS module_globals) (Some m) 0.0%float = 0.0%float.
Proof.
  intros Hm. apply not_elem_of_dom in Hm. unfold dict_get. rewrite Hm. reflexivity.
Qed.

Lemma factors_range (m : string) :
  dict_get (EMISSION_FACTORS module_globals) (Some m) 0.0%float
    ∈ [0.120%float; 0.068%float; 0.045%float; 0.0%float].
Proof.
  unfold dict_get. rewrite factors_lookup.
  repeat case_decide; set_solver.
Qed.

(** ** The estimator and the handler, step by step *)

Lemma float_of_int_100 : float_of_int 100 = Returns 100%float.
Proof. reflexivity. Qed.

Lemma mul_float_100 (f : float) : mul_float (PyInt 100) f = Returns (100 * f)%float.
Proof. unfold mul_float. rewrite float_of_int_100. reflexivity. Qed.

Lemma run_estimate mode distance g :
  run (estimate mode distance) g =
    (g, mul_float distance (dict_get (EMISSION_FACTORS g) mode 0.0%float)).
Proof. reflexivity. Qed.

Lemma truthy_false_iff (v : option string) : truthy v = false ↔ absent_or_empty v.
Proof.
  unfold absent_or_empty. destruct v as [s|]; simpl.
  - rewrite negb_false_iff, String.eqb_eq. split.
    + intros ->. right; reflexivity.
    + intros [H|H]; congruence.
  - split; [left|]; reflexivity.
Qed.

Lemma truthy_true_iff (v : option string) :
  truthy v = true ↔ ∃ s : string, v = Some s ∧ s ≠ "".
Proof.
  destruct v as [s|]; simpl.
  - rewrite negb_true_iff, String.eqb_neq. split.
    + intros H. exists s. split; [reflexivity | exact H].
    + intros (s' & [= <-] & H). exact H.
  - split; [discriminate | intros (s & H & _); discriminate].
Qed.

(** The guard of [calculate] is the missing-input condition. *)
Lemma guard_iff (form : MultiDict) :
  negb (truthy (form_get "start" form)) || negb (truthy (form_get "end" form))
    || negb (truthy (form_get "mode" form)) = true
  ↔ missing_input form.
Proof.
  unfold missing_input.
  rewrite !orb_true_iff, !negb_true_iff, !truthy_false_iff. tauto.
Qed.

Lemma missing_input_dec (form : MultiDict) : missing_input form ∨ ¬ missing_input form.
Proof.
  rewrite <- guard_iff.
  destruct (negb _ || negb _ || negb _); [left | right]; congruence.
Qed.

Lemma run_calculate_missing form g :
  missing_input form →
  run (calculate form) g = (g, Returns (error_response "Missing required inputs!")).
Proof.
  intros Hm. apply guard_iff in Hm.
  unfold calculate.
  rewrite (run_try_raises _ _ g g (ValueError "Missing required inputs!"));
    [reflexivity |].
  unfold calculate_try. apply run_bind_raises. rewrite Hm. apply run_raise.
Qed.

Lemma run_calculate_present form g :
  ¬ missing_input form →
  run (calculate form) g =
    (g, Returns (success_response (form_get "start" form) (form_get "end" form)
                   (form_get "mode" form)
                   (100 * dict_get (EMISSION_FACTORS g) (form_get "mode" form) 0.0)%float)).
Proof.
  intros Hm. rewrite <- guard_iff in Hm. apply not_true_is_false in Hm.
  unfold calculate. apply run_try_returns. unfold calculate_try.
  rewrite (run_bind_returns _ _ g g ()) by (rewrite Hm; apply run_ret).
  erewrite run_bind_returns; [apply run_ret |].
  rewrite run_estimate, mul_float_100. reflexivity.
Qed.

Lemma success_response_shape start end_ mode cf :
  success_shape (success_response start end_ mode cf).
Proof.
  unfold success_shape, success_response.
  rewrite !dom_insert_L, dom_singleton_L. reflexivity.
Qed.

Lemma error_response_shape msg : error_shape (error_response msg).
Proof. exists msg. reflexivity. Qed.

Lemma error_response_fields msg (k : string) :
  k ≠ "error" → error_response msg !! k = None.
Proof. intros Hk. apply lookup_singleton_ne. congruence. Qed.

Lemma success_response_no_error start end_ mode cf :
  success_response start end_ mode cf !! "error" = None.
Proof.
  unfold success_response.
  repeat (rewrite lookup_insert_ne by done). by apply lookup_singleton_ne.
Qed.

Lemma success_response_fields start end_ mode cf :
  let r := success_response start end_ mode cf in
  r !! "start" = Some (json_of_field start) ∧
  r !! "end" = Some (json_of_field end_) ∧
  r !! "mode" = Some (json_of_field mode) ∧
  r !! "distance" = Some (JInt 100) ∧
  r !! "carbon_footprint" = Some (JFloat cf).
Proof.
  unfold success_response; simpl.
  repeat split; repeat (rewrite lookup_insert_ne by done);
    first [apply lookup_insert_eq | apply lookup_singleton_eq].
Qed.

(** The decimal literals of the table denote the binary64 values nearest to
    12/100, 68/1000 and 45/1000. *)
Lemma factor_literals :
  (0.120 = 12 / 100)%float ∧ (0.068 = 68 / 1000)%float ∧ (0.045 = 45 / 1000)%float.
Proof. repeat split; reflexivity. Qed.

(** ** The estimator *)

(** *** Converting an [int] below 2^53 *)

Lemma digits2_pos_iter_xO (p k : positive) :
  digits2_pos (Pos.iter xO p k) = (digits2_pos p + k)%positive.
Proof.
  induction k as [| k IH] using Pos.peano_ind.
  - simpl. lia.
  - rewrite Pos.iter_succ. simpl. rewrite IH. lia.
Qed.

Lemma pos_iter_xO_value (p k : positive) :
  Z.pos (Pos.iter xO p k) = Z.pos p * 2 ^ Z.pos k.
Proof.
  induction k as [| k IH] using Pos.peano_ind.
  - simpl. lia.
  - rewrite Pos.iter_succ, Pos2Z.inj_succ, Z.pow_succ_r by lia.
    rewrite Pos2Z.inj_xO, IH. lia.
Qed.

Lemma digits2_pos_lower (p : positive) : 2 ^ (Z.pos (digits2_pos p) - 1) ≤ Z.pos p.
Proof.
  induction p as [p IH | p IH |]; simpl digits2_pos; [| | simpl; lia];
    rewrite Pos2Z.inj_succ;
    replace (Z.succ (Z.pos (digits2_pos p)) - 1)
      with (Z.succ (Z.pos (digits2_pos p) - 1)) by lia;
    rewrite Z.pow_succ_r by lia; lia.
Qed.

Lemma digits2_pos_le_53 (p : positive) :
  Z.pos p < 2 ^ 53 → Z.pos (digits2_pos p) ≤ 53.
Proof.
  intros H. pose proof (digits2_pos_lower p) as L.
  destruct (Z_le_gt_dec (Z.pos (digits2_pos p)) 53) as [Hle | Hgt]; [exact Hle |].
  exfalso.
  assert (2 ^ 53 ≤ 2 ^ (Z.pos (digits2_pos p) - 1)) by (apply Z.pow_le_mono_r; lia).
  lia.
Qed.

(** A mantissa of 53 bits at an exponent in range is left as it is. *)
Lemma shr_fexp_canonical (m : positive) (e : Z) :
  Z.pos (digits2_pos m) = 53 → -1074 ≤ e →
  shr_fexp prec emax (Z.pos m) e loc_Exact
    = ({| shr_m := Z.pos m; shr_r := false; shr_s := false |}, e).
Proof.
  intros Hd He. unfold shr_fexp, fexp, emin, prec, emax.
  change (Zdigits2 (Z.pos m)) with (Z.pos (digits2_pos m)). rewrite Hd.
  replace (Z.max (53 + e - 53) (3 - 1024 - 53) - e) with 0 by lia.
  reflexivity.
Qed.

Lemma binary_round_aux_canonical (s : bool) (m : positive) (e : Z) :
  Z.pos (digits2_pos m) = 53 → -1074 ≤ e ≤ 971 →
  binary_round_aux prec emax s (Z.pos m) e loc_Exact = S754_finite s m e.
Proof.
  intros Hd He. unfold binary_round_aux.
  rewrite shr_fexp_canonical by lia.
  cbn [shr_m loc_of_shr_record round_nearest_even].
  rewrite shr_fexp_canonical by lia.
  cbn [shr_m]. unfold emax, prec.
  replace (e <=? 1024 - 53) with true by (symmetry; apply Z.leb_le; lia).
  reflexivity.
Qed.

Lemma binary_normalize_small (p : positive) :
  Z.pos p < 2 ^ 53 →
  ∃ (m : positive) (e : Z),
    binary_normalize prec emax (Z.pos p) 0 false = S754_finite false m e ∧
    valid_binary (S754_finite false m e) = true ∧
    e ≤ 0 ∧ Z.pos m = Z.pos p * 2 ^ (- e).
Proof.
  intros Hp. pose proof (digits2_pos_le_53 p Hp) as Hd.
  unfold binary_normalize, binary_round, shl_align, fexp, emin, prec, emax.
  replace (Z.max (Z.pos (digits2_pos p) + 0 - 53) (3 - 1024 - 53) - 0)
    with (Z.pos (digits2_pos p) - 53) by lia.
  destruct (Z.pos (digits2_pos p) - 53) as [| q | q] eqn:Hk; try lia.
  - exists p, 0. rewrite binary_round_aux_canonical by lia.
    split; [reflexivity |]. split.
    + unfold valid_binary, bounded, canonical_mantissa, SpecFloat.fexp,
        SpecFloat.emin, prec, emax.
      apply andb_true_intro. split; [apply Z.eqb_eq | apply Z.leb_le]; lia.
    + split; [lia |]. simpl. lia.
  - replace (Z.max (Z.pos (digits2_pos p) + 0 - 53) (3 - 1024 - 53))
      with (Z.neg q) by lia.
    exists (Pos.iter xO p q), (Z.neg q).
    assert (Hdq : Z.pos (digits2_pos (Pos.iter xO p q)) = 53).
    { rewrite digits2_pos_iter_xO. lia. }
    rewrite binary_round_aux_canonical by lia.
    split; [reflexivity |]. split.
    + unfold valid_binary, bounded, canonical_mantissa, SpecFloat.fexp,
        SpecFloat.emin, prec, emax.
      rewrite Hdq.
      apply andb_true_intro. split; [apply Z.eqb_eq | apply Z.leb_le]; lia.
    + split; [lia |]. rewrite pos_iter_xO_value. reflexivity.
Qed.

(** [float(z)] of an [int] from 0 up to 2^53 does not raise and is the
    double whose value is [z]. *)
Lemma float_of_int_exact (z : Z) :
  0 ≤ z < 2 ^ 53 → ∃ x : float, float_of_int z = Returns x ∧ is_int x z.
Proof.
  intros [Hz0 Hz]. unfold float_of_int, is_int. destruct z as [| p | p]; [| | lia].
  - exists 0%float. split; reflexivity.
  - destruct (binary_normalize_small p Hz) as (m & e & Hn & Hv & He & Hm).
    exists (SF2Prim (S754_finite false m e)). rewrite Hn.
    split; [reflexivity |].
    rewrite (Prim2SF_SF2Prim _ Hv). cbn [cond_Zopp].
    rewrite Z.max_r, Z.max_l by lia. rewrite Hm. simpl (2 ^ 0). lia.
Qed.

(** C1, as the expression has it. For each of the five recognized modes
    [m], with the factor [f] the specification lists for it: the table
    stores [f] under [m]; for every [float] distance [x] the estimator
    returns the binary64 product [x * f]; for every [int] distance that
    [float()] converts, to [x] say, it returns [x * f]; and every [int]
    from 0 up to 2^53 is one of those, with [x] the double whose value is
    that integer. *)
Theorem estimate_recognized (m : string) (f : float) :
  (m, f) ∈ recognized_modes →
  EMISSION_FACTORS module_globals !! m = Some f ∧
  (∀ x : float,
     run (estimate (Some m) (PyFloat x)) module_globals
       = (module_globals, Returns (x * f)%float)) ∧
  (∀ (z : Z) (x : float),
     float_of_int z = Returns x →
     run (estimate (Some m) (PyInt z)) module_globals
       = (module_globals, Returns (x * f)%float)) ∧
  (∀ z : Z,
     0 ≤ z < 2 ^ 53 →
     ∃ x : float,
       is_int x z ∧
       run (estimate (Some m) (PyInt z)) module_globals
         = (module_globals, Returns (x * f)%float)).
Proof.
  unfold recognized_modes. intros Hin.
  assert (Hf : EMISSION_FACTORS module_globals !! m = Some f).
  { repeat (apply elem_of_cons in Hin as [[= -> ->] | Hin]; [reflexivity |]).
    by apply elem_of_nil in Hin. }
  split; [exact Hf |].
  assert (Hget : dict_get (EMISSION_FACTORS module_globals) (Some m) 0.0%float = f).
  { unfold dict_get. rewrite Hf. reflexivity. }
  assert (Hint : ∀ (z : Z) (x : float),
            float_of_int z = Returns x →
            run (estimate (Some m) (PyInt z)) module_globals
              = (module_globals, Returns (x * f)%float)).
  { intros z x Hx. rewrite run_estimate, Hget. unfold mul_float. rewrite Hx.
    reflexivity. }
  split; [intros x; rewrite run_estimate, Hget; reflexivity |].
  split; [exact Hint |].
  intros z Hz. destruct (float_of_int_exact z Hz) as (x & Hx & Hxz).
  exists x. split; [exact Hxz | exact (Hint z x Hx)].
Qed.

Lemma estimate_recognized_witness :
  ("car", 0.120%float) ∈ recognized_modes ∧
  float_of_int 100 = Returns 100%float ∧
  run (estimate (Some "car") (PyInt 100)) module_globals
    = (module_globals, Returns 12.0%float).
Proof.
  assert (Hin : ("car", 0.120%float) ∈ recognized_modes).
  { unfold recognized_modes. apply elem_of_cons; left. reflexivity. }
  assert (Hx : float_of_int 100 = Returns 100%float) by reflexivity.
  split; [exact Hin |]. split; [exact Hx |].
  destruct (estimate_recognized "car" 0.120%float Hin) as (_ & _ & Hint & _).
  exact (Hint 100 100%float Hx).
Defined.

(** C1 as stated promises a returned product for every non-negative
    distance. An [int] distance is converted by [float()] first, and for
    2^1024, which no double can hold, that raises: the estimator raises
    [OverflowError] for the mode car and returns nothing. *)
Lemma estimate_recognized_overflow :
  run (estimate (Some "car") (PyInt (2 ^ 1024))) module_globals
    = (module_globals, Raises (OverflowError "int too large to convert to float")) ∧
  ¬ (∀ (m : string) (f : float) (d : number),
       (m, f) ∈ recognized_modes →
       non_negative d →
       ∃ v : float,
         run (estimate (Some m) d) module_globals = (module_globals, Returns v)).
Proof.
  assert (Hrun : run (estimate (Some "car") (PyInt (2 ^ 1024))) module_globals
            = (module_globals,
               Raises (OverflowError "int too large to convert to float")))
    by (vm_compute; reflexivity).
  split; [exact Hrun |].
  intros H.
  destruct (H "car" 0.120%float (PyInt (2 ^ 1024))) as [v Hv].
  - unfold recognized_modes. apply elem_of_cons; left. reflexivity.
  - simpl. lia.
  - rewrite Hrun in Hv. discriminate Hv.
Qed.

(** C8. For every mode string, in the table or not, the estimator applied
    to distance zero (the [int] 0 or the [float] 0.0) gives exactly 0.0; for
    the [float] -0.0 it gives a value that [==] 0.0. *)
Theorem estimate_zero_distance (m : string) :
  run (estimate (Some m) (PyInt 0)) module_globals = (module_globals, Returns 0.0%float) ∧
  run (estimate (Some m) (PyFloat 0.0)) module_globals = (module_globals, Returns 0.0%float) ∧
  ∃ z : float,
    run (estimate (Some m) (PyFloat (-0.0))) module_globals = (module_globals, Returns z) ∧
    (z =? 0.0)%float = true.
Proof.
  rewrite !run_estimate.
  pose proof (factors_range m) as Hf.
  repeat (apply elem_of_cons in Hf as [-> | Hf];
          [repeat split; eexists; split; reflexivity |]).
  by apply elem_of_nil in Hf.
Qed.

(** ** The handler on complete requests *)

Lemma run_calculate_complete (form : MultiDict) (start end_ mode : string) (g : globals) :
  form_get "start" form = Some start → start ≠ "" →
  form_get "end" form = Some end_ → end_ ≠ "" →
  form_get "mode" form = Some mode → mode ≠ "" →
  run (calculate form) g =
    (g, Returns (success_response (Some start) (Some end_) (Some mode)
                   (100 * dict_get (EMISSION_FACTORS g) (Some mode) 0.0)%float)).
Proof.
  intros Hs Hs' He He' Hm Hm'.
  rewrite run_calculate_present.
  - rewrite Hs, He, Hm. reflexivity.
  - intros [H | [H | H]]; apply truthy_false_iff in H;
      [rewrite Hs in H | rewrite He in H | rewrite Hm in H];
      simpl in H; apply negb_false_iff, String.eqb_eq in H; contradiction.
Qed.

(** C2. When [start], [end] and [mode] are all submitted and non-empty, the
    handler answers with the object that repeats them unchanged, has
    [distance] 100 and has [carbon_footprint] equal to 100 times the factor
    looked up for [mode] (0.0 when the table has none). *)
Theorem calculate_success (form : MultiDict) (start end_ mode : string) (g : globals) :
  form_get "start" form = Some start → start ≠ "" →
  form_get "end" form = Some end_ → end_ ≠ "" →
  form_get "mode" form = Some mode → mode ≠ "" →
  run (calculate form) g =
    (g, Returns {[ "start" := JStr start;
                   "end" := JStr end_;
                   "mode" := JStr mode;
                   "distance" := JInt 100;
                   "carbon_footprint" :=
                     JFloat (100 * dict_get (EMISSION_FACTORS g) (Some mode) 0.0)%float ]}).
Proof.
  intros Hs Hs' He He' Hm Hm'.
  rewrite (run_calculate_complete form start end_ mode) by assumption.
  reflexivity.
Qed.

Lemma calculate_success_witness :
  let form := [("start", "Oslo"); ("end", "Bergen"); ("mode", "train")] in
  (form_get "start" form = Some "Oslo" ∧ "Oslo" ≠ "") ∧
  (form_get "end" form = Some "Bergen" ∧ "Bergen" ≠ "") ∧
  (form_get "mode" form = Some "train" ∧ "train" ≠ "") ∧
  run (calculate form) module_globals =
    (module_globals,
     Returns {[ "start" := JStr "Oslo"; "end" := JStr "Bergen"; "mode" := JStr "train";
                "distance" := JInt 100; "carbon_footprint" := JFloat 4.5 ]}).
Proof.
  intros form.
  do 3 (split; [split; [reflexivity | discriminate] |]).
  apply (calculate_success form "Oslo" "Bergen" "train" module_globals);
    first [reflexivity | discriminate].
Defined.

(** C5. When all three fields are submitted and non-empty and [mode] is
    ["car"], the response has [distance] 100 and [carbon_footprint] 12.0:
    the binary64 product of 100 and 0.120 is exactly 12.0. *)
Theorem calculate_car (form : MultiDict) (start end_ : string) :
  form_get "start" form = Some start → start ≠ "" →
  form_get "end" form = Some end_ → end_ ≠ "" →
  form_get "mode" form = Some "car" →
  (100 * 0.120 = 12.0)%float ∧
  ∃ r : gmap string json,
    run (calculate form) module_globals = (module_globals, Returns r) ∧
    r !! "distance" = Some (JInt 100) ∧
    r !! "carbon_footprint" = Some (JFloat 12.0).
Proof.
  intros Hs Hs' He He' Hm.
  split; [reflexivity |].
  exists (success_response (Some start) (Some end_) (Some "car") 12.0).
  split.
  - rewrite (run_calculate_complete form start end_ "car") by done. reflexivity.
  - split; apply success_response_fields.
Qed.

Lemma calculate_car_witness :
  let form := [("mode", "car"); ("start", "Lyon"); ("end", "Turin")] in
  ∃ r : gmap string json,
    run (calculate form) module_globals = (module_globals, Returns r) ∧
    r !! "distance" = Some (JInt 100) ∧
    r !! "carbon_footprint" = Some (JFloat 12.0).
Proof.
  intros form.
  apply (calculate_car form "Lyon" "Turin");
    first [reflexivity | discriminate].
Defined.

(** A non-empty mode outside the table, with [start] and [end] given. *)
Lemma calculate_unrecognized_mode_aux (form : MultiDict) (start end_ mode : string) :
  form_get "start" form = Some start → start ≠ "" →
  form_get "end" form = Some end_ → end_ ≠ "" →
  form_get "mode" form = Some mode → mode ≠ "" →
  mode ∉ dom (EMISSION_FACTORS module_globals) →
  ∃ r : gmap string json,
    run (calculate form) module_globals = (module_globals, Returns r) ∧
    success_shape r ∧
    r !! "carbon_footprint" = Some (JFloat 0.0) ∧
    r !! "error" = None.
Proof.
  intros Hs Hs' He He' Hm Hm' Hdom.
  exists (success_response (Some start) (Some end_) (Some mode) 0.0).
  split; [| split; [apply success_response_shape |
                    split; [apply success_response_fields |
                            apply success_response_no_error]]].
  rewrite (run_calculate_complete form start end_ mode) by done.
  rewrite (factors_unrecognized mode Hdom). reflexivity.
Qed.

(** C4, as the handler has it. When [start], [end] and [mode] are all
    submitted and non-empty and [mode] is not a key of the factor table, the
    handler answers with the success object whose [carbon_footprint] is 0.0,
    and that object has no [error] field. *)
Theorem calculate_unrecognized_mode (form : MultiDict) (start end_ mode : string) :
  form_get "start" form = Some start → start ≠ "" →
  form_get "end" form = Some end_ → end_ ≠ "" →
  form_get "mode" form = Some mode → mode ≠ "" →
  mode ∉ dom (EMISSION_FACTORS module_globals) →
  ∃ r : gmap string json,
    run (calculate form) module_globals = (module_globals, Returns r) ∧
    success_shape r ∧
    r !! "carbon_footprint" = Some (JFloat 0.0) ∧
    r !! "error" = None.
Proof.
  intros Hs Hs' He He' Hm Hm' Hdom.
  by apply (calculate_unrecognized_mode_aux form start end_ mode).
Qed.

Lemma scooter_unrecognized : "scooter" ∉ dom (EMISSION_FACTORS module_globals).
Proof.
  apply not_elem_of_dom. rewrite factors_lookup. reflexivity.
Qed.

Lemma calculate_unrecognized_mode_witness :
  let form := [("start", "Porto"); ("end", "Faro"); ("mode", "scooter")] in
  ("scooter" ∉ dom (EMISSION_FACTORS module_globals)) ∧
  ∃ r : gmap string json,
    run (calculate form) module_globals = (module_globals, Returns r) ∧
    success_shape r ∧
    r !! "carbon_footprint" = Some (JFloat 0.0) ∧
    r !! "error" = None.
Proof.
  intros form. split; [exact scooter_unrecognized |].
  apply (calculate_unrecognized_mode form "Porto" "Faro" "scooter");
    first [reflexivity | discriminate | exact scooter_unrecognized].
Defined.

(** C4 as stated asks nothing of [mode] but that it is a string outside the
    table. The empty string is one, and the handler rejects it: with
    [start] and [end] given and [mode] submitted empty the response is the
    error object, which has no [carbon_footprint]. *)
Lemma calculate_unrecognized_mode_empty :
  ¬ (∀ (form : MultiDict) (start end_ mode : string),
       form_get "start" form = Some start → start ≠ "" →
       form_get "end" form = Some end_ → end_ ≠ "" →
       form_get "mode" form = Some mode →
       mode ∉ dom (EMISSION_FACTORS module_globals) →
       ∃ r : gmap string json,
         run (calculate form) module_globals = (module_globals, Returns r) ∧
         r !! "carbon_footprint" = Some (JFloat 0.0)).
Proof.
  intros H.
  assert (Hdom : "" ∉ dom (EMISSION_FACTORS module_globals)).
  { apply not_elem_of_dom. rewrite factors_lookup. reflexivity. }
  destruct (H [("start", "Porto"); ("end", "Faro"); ("mode", "")] "Porto" "Faro" "")
    as (r & Hrun & Hcf); try reflexivity; try discriminate; try exact Hdom.
  rewrite run_calculate_missing in Hrun.
  - injection Hrun as <-.
    rewrite error_response_fields in Hcf; discriminate.
  - right; right. right. reflexivity.
Qed.

(** ** Validation *)

(** What the view function does with the two outcomes of [request.form]. *)
Lemma run_calculate_request_read (req : Request) (form : MultiDict) (g : globals) :
  request_form req = Returns form →
  run (calculate_request req) g = run (calculate form) g.
Proof.
  intros Hform.
  unfold calculate_request, calculate_request_try, calculate, try_except, run,
    lift, mbind, M_bind.
  rewrite Hform. reflexivity.
Qed.

Lemma run_calculate_request_refused (req : Request) (e : exn) (g : globals) :
  request_form req = Raises e →
  run (calculate_request req) g = (g, Returns (error_response (str e))).
Proof.
  intros Hform.
  unfold calculate_request, calculate_request_try, try_except, run,
    lift, mbind, M_bind.
  rewrite Hform. reflexivity.
Qed.

(** C3, as the handler has it. The response has an [error] field exactly
    when reading the form raised or one of [start], [end], [mode] is absent
    or empty in the form that was read. A response with an [error] field is
    the object with that single field, so it has no [carbon_footprint] nor
    any other success field; its message is [str(e)] of what reading the
    form raised, or the missing-input message. On a form that was read
    nothing else is validated: whenever the three fields are present and
    non-empty, whatever they contain, the response has the success shape. *)
Theorem calculate_request_error_iff (req : Request) (g : globals) :
  ∃ r : gmap string json,
    run (calculate_request req) g = (g, Returns r) ∧
    (is_Some (r !! "error") ↔
       (∃ e : exn, request_form req = Raises e) ∨
       (∃ form : MultiDict, request_form req = Returns form ∧ missing_input form)) ∧
    (is_Some (r !! "error") →
       dom r = {[ "error" ]} ∧ r !! "carbon_footprint" = None) ∧
    (∀ e : exn,
       request_form req = Raises e → r !! "error" = Some (JStr (str e))) ∧
    (∀ form : MultiDict,
       request_form req = Returns form →
       (missing_input form → r !! "error" = Some (JStr "Missing required inputs!")) ∧
       (¬ missing_input form → success_shape r)).
Proof.
  destruct (request_form req) as [form | e] eqn:Hform.
  - rewrite (run_calculate_request_read req form g Hform).
    destruct (missing_input_dec form) as [Hm | Hm].
    + exists (error_response "Missing required inputs!").
      split; [apply run_calculate_missing, Hm |].
      split; [| split; [| split]].
      * split; [intros _; right; exists form; split; [reflexivity | exact Hm] |].
        intros _. eexists. apply lookup_singleton_eq.
      * intros _. split; [apply dom_singleton_L | by apply error_response_fields].
      * intros e [=].
      * intros form' [= <-]. split; [intros _; apply lookup_singleton_eq |].
        contradiction.
    + eexists. split; [apply run_calculate_present, Hm |].
      rewrite success_response_no_error.
      split; [| split; [| split]].
      * split; [intros [? [=]] |].
        intros [[e [=]] | (form' & [= <-] & Hm')]. contradiction.
      * intros [? [=]].
      * intros e [=].
      * intros form' [= <-]. split; [contradiction |].
        intros _. apply success_response_shape.
  - exists (error_response (str e)).
    split; [apply run_calculate_request_refused, Hform |].
    split; [| split; [| split]].
    + split; [intros _; left; exists e; reflexivity |].
      intros _. eexists. apply lookup_singleton_eq.
    + intros _. split; [apply dom_singleton_L | by apply error_response_fields].
    + intros e' [= <-]. apply lookup_singleton_eq.
    + intros form [=].
Qed.

(** C3 as stated makes a missing or empty field the only source of an error
    result. Reading the form happens inside the [try] too: for the request
    above it raises, the [except] block answers with that exception's
    message, and none of the three fields is absent or empty. *)
Lemma calculate_error_iff_refused :
  ¬ missing_input (parts crowded_request) ∧
  run (calculate_request crowded_request) module_globals
    = (module_globals,
       Returns {[ "error" := JStr "413 Request Entity Too Large: The data value transmitted exceeds the capacity limit." ]}) ∧
  ¬ (∀ (req : Request) (g : globals),
       ∃ r : gmap string json,
         run (calculate_request req) g = (g, Returns r) ∧
         (is_Some (r !! "error") ↔ missing_input (parts req))).
Proof.
  assert (Hpresent : ¬ missing_input (parts crowded_request)).
  { intros [H | [H | H]]; destruct H as [H | H]; discriminate H. }
  assert (Hrun : run (calculate_request crowded_request) module_globals
            = (module_globals, Returns (error_response (str RequestEntityTooLarge)))).
  { apply run_calculate_request_refused. reflexivity. }
  split; [exact Hpresent |]. split; [exact Hrun |].
  intros H. destruct (H crowded_request module_globals) as (r & Hr & Hiff).
  rewrite Hrun in Hr. injection Hr as <-.
  apply Hpresent, Hiff. eexists. apply lookup_singleton_eq.
Qed.

(** C10. Whichever of the three fields is absent or empty, and however many
    of them are, the response is the one object
    [{"error": "Missing required inputs!"}]; two failing requests get equal
    responses, so the message does not tell which field was at fault. *)
Theorem calculate_error_message (form : MultiDict) (g : globals) :
  missing_input form →
  run (calculate form) g
    = (g, Returns {[ "error" := JStr "Missing required inputs!" ]}) ∧
  ∀ form' : MultiDict,
    missing_input form' →
    snd (run (calculate form') g) = snd (run (calculate form) g).
Proof.
  intros Hm. split; [apply run_calculate_missing, Hm |].
  intros form' Hm'. rewrite !run_calculate_missing by assumption. reflexivity.
Qed.

Lemma calculate_error_message_witness :
  let form := [("start", ""); ("mode", "bus")] in
  let form' := [("start", "Gent"); ("end", "Liege")] in
  missing_input form ∧ missing_input form' ∧
  run (calculate form) module_globals
    = (module_globals, Returns {[ "error" := JStr "Missing required inputs!" ]}) ∧
  snd (run (calculate form') module_globals) = snd (run (calculate form) module_globals).
Proof.
  intros form form'.
  assert (Hm : missing_input form) by (left; right; reflexivity).
  assert (Hm' : missing_input form') by (right; right; left; reflexivity).
  split; [exact Hm | split; [exact Hm' |]].
  destruct (calculate_error_message form module_globals Hm) as [Hrun Hsame].
  split; [exact Hrun | exact (Hsame form' Hm')].
Defined.

(** ** No exception leaves the handler *)

(** C6. For every submitted form, in every state of the module, the handler
    returns (it does not raise) a response of the success shape or of the
    error shape; and whatever the [try] block does, the [except] block turns
    an exception [e] raised in it into the returned object
    [{"error": str(e)}]. *)
Theorem calculate_total (form : MultiDict) (g : globals) :
  (∃ r : gmap string json,
     run (calculate form) g = (g, Returns r) ∧ (success_shape r ∨ error_shape r)) ∧
  ∀ body : M (gmap string json),
    ∃ (g' : globals) (r : gmap string json),
      run (try_except body calculate_except) g = (g', Returns r) ∧
      ∀ e : exn, snd (run body g) = Raises e → r = {[ "error" := JStr (str e) ]}.
Proof.
  split.
  - destruct (missing_input_dec form) as [Hm | Hm].
    + eexists. split; [apply run_calculate_missing, Hm |].
      right. apply error_response_shape.
    + eexists. split; [apply run_calculate_present, Hm |].
      left. apply success_response_shape.
  - intros body. destruct (run body g) as [g' [r | e]] eqn:Hbody.
    + exists g', r. split; [apply run_try_returns, Hbody |].
      intros e [=].
    + exists g', {[ "error" := JStr (str e) ]}.
      split; [rewrite (run_try_raises _ _ _ _ _ Hbody); reflexivity |].
      intros e' [= <-]. reflexivity.
Qed.

(** ** Determinism *)

(** C7. Neither the handler nor the estimator changes the module's state,
    so running either a second time on the same input, in the state the
    first run left (also with another request served in between), gives the
    same outcome as the first run. *)
Theorem calculate_deterministic (form other : MultiDict) (mode : option string)
    (distance : number) (g : globals) :
  (fst (run (calculate form) g) = g ∧
   snd (run (calculate form) (fst (run (calculate form) g)))
     = snd (run (calculate form) g) ∧
   snd (run (calculate form) (fst (run (calculate other) g)))
     = snd (run (calculate form) g)) ∧
  (fst (run (estimate mode distance) g) = g ∧
   snd (run (estimate mode distance) (fst (run (estimate mode distance) g)))
     = snd (run (estimate mode distance) g)).
Proof.
  assert (Hst : ∀ f, fst (run (calculate f) g) = g).
  { intros f. destruct (missing_input_dec f) as [Hm | Hm].
    - rewrite run_calculate_missing by exact Hm. reflexivity.
    - rewrite run_calculate_present by exact Hm. reflexivity. }
  split.
  - split; [apply Hst |]. rewrite !Hst. split; reflexivity.
  - rewrite !run_estimate. split; reflexivity.
Qed.

(** ** Exact matching of the mode *)

Lemma canonical_mode_key (k : string) :
  k ∈ dom (EMISSION_FACTORS module_globals) → canonical_mode k = k.
Proof.
  rewrite factors_dom, !elem_of_union, !elem_of_singleton.
  intros [[[[-> | ->] | ->] | ->] | ->]; reflexivity.
Qed.

(** C9. A mode string [m] that is not a table key [k] itself but becomes
    [k] once surrounding whitespace is stripped and letters are lowered is
    not found in the table: the lookup falls back to 0.0, and a request
    with that mode, [start] and [end] being given, gets [carbon_footprint]
    0.0 whatever the factor of [k] is. *)
Theorem mode_lookup_exact (m k : string) :
  k ∈ dom (EMISSION_FACTORS module_globals) →
  canonical_mode m = k →
  m ≠ k →
  EMISSION_FACTORS module_globals !! m = None ∧
  dict_get (EMISSION_FACTORS module_globals) (Some m) 0.0%float = 0.0%float ∧
  ∀ (form : MultiDict) (start end_ : string),
    form_get "start" form = Some start → start ≠ "" →
    form_get "end" form = Some end_ → end_ ≠ "" →
    form_get "mode" form = Some m →
    ∃ r : gmap string json,
      run (calculate form) module_globals = (module_globals, Returns r) ∧
      success_shape r ∧
      r !! "carbon_footprint" = Some (JFloat 0.0).
Proof.
  intros Hk Hcanon Hne.
  assert (Hdom : m ∉ dom (EMISSION_FACTORS module_globals)).
  { intros Hm. apply Hne. rewrite <- Hcanon. symmetry. apply canonical_mode_key, Hm. }
  assert (Hnonempty : m ≠ "").
  { intros ->. apply Hne. rewrite <- Hcanon. reflexivity. }
  split; [apply not_elem_of_dom, Hdom |].
  split; [apply factors_unrecognized, Hdom |].
  intros form start end_ Hs Hs' He He' Hm.
  destruct (calculate_unrecognized_mode_aux form start end_ m)
    as (r & Hrun & Hshape & Hcf & _); try assumption.
  exists r. repeat split; assumption.
Qed.

Lemma mode_lookup_exact_witness :
  let form := [("start", "Graz"); ("end", "Linz"); ("mode", "Car")] in
  ("car" ∈ dom (EMISSION_FACTORS module_globals)) ∧
  canonical_mode "Car" = "car" ∧
  "Car" ≠ "car" ∧
  EMISSION_FACTORS module_globals !! "car" = Some 0.120%float ∧
  EMISSION_FACTORS module_globals !! "Car" = None ∧
  ∃ r : gmap string json,
    run (calculate form) module_globals = (module_globals, Returns r) ∧
    success_shape r ∧
    r !! "carbon_footprint" = Some (JFloat 0.0).
Proof.
  intros form.
  assert (Hk : "car" ∈ dom (EMISSION_FACTORS module_globals)).
  { apply elem_of_dom. exists 0.120%float. reflexivity. }
  assert (Hne : "Car" ≠ "car") by discriminate.
  destruct (mode_lookup_exact "Car" "car" Hk eq_refl Hne) as (Hnone & _ & Hreq).
  split; [exact Hk |]. split; [reflexivity |]. split; [exact Hne |].
  split; [reflexivity |]. split; [exact Hnone |].
  apply (Hreq form "Graz" "Linz"); first [reflexivity | discriminate].
Defined.

(** The two strings the specification gives as examples, and a few more. *)
Example mode_lookup_examples :
  canonical_mode "Car" = "car" ∧ canonical_mode "car " = "car" ∧
  canonical_mode "  BUS" = "bus" ∧ canonical_mode "Walking" = "walking" ∧
  Forall (λ m, dict_get (EMISSION_FACTORS module_globals) (Some m) 0.0%float = 0.0%float)
    ["Car"; "car "; "  BUS"; "Walking"; "TRAIN"; " car"].
Proof. repeat split; repeat constructor. Qed.


(** ** Which submitted fields the handler looks at *)

Lemma form_get_app (key : string) (form extra : MultiDict) :
  form_get key (form ++ extra) =
    match form_get key form with
    | Some v => Some v
    | None => form_get key extra
    end.
Proof.
  induction form as [| [k v] form IH]; simpl; [reflexivity |].
  destruct (String.eqb k key); [reflexivity | exact IH].
Qed.

Lemma form_get_filter (key : string) (form : list (string * string)) :
  key ∈ fields →
  form_get key (filter (λ kv, kv.1 ∈ fields) form) = form_get key form.
Proof.
  intros Hkey. induction form as [| [k v] form IH]; [reflexivity |].
  rewrite filter_cons. simpl. destruct (String.eqb k key) eqn:Hk.
  - apply String.eqb_eq in Hk. subst k.
    rewrite decide_True by exact Hkey. simpl. rewrite String.eqb_refl. reflexivity.
  - case_decide; [simpl; rewrite Hk |]; exact IH.
Qed.

(** The outcome depends on the form only through the three lookups. *)
Lemma run_calculate_ext (form form' : MultiDict) (g : globals) :
  (∀ key, key ∈ fields → form_get key form' = form_get key form) →
  run (calculate form') g = run (calculate form) g.
Proof.
  intros H. unfold calculate, calculate_try.
  rewrite !H by (unfold fields; set_solver). reflexivity.
Qed.

(** Reading the form gives the fields that were sent, or is refused. *)
Lemma request_form_cases (req : Request) :
  request_form req = Returns (parts req) ∨
  request_form req = Raises RequestEntityTooLarge.
Proof.
  unfold request_form. destruct (body_too_large req || _); [right | left]; reflexivity.
Qed.

Lemma run_calculate_request_cases (req req' : Request) (form : MultiDict) (g : globals) :
  request_form req = Returns form →
  (∀ key, key ∈ fields → form_get key (parts req') = form_get key form) →
  (request_form req' = Returns (parts req') ∧
   run (calculate_request req') g = run (calculate_request req) g) ∨
  (request_form req' = Raises RequestEntityTooLarge ∧
   run (calculate_request req') g
     = (g, Returns {[ "error" := JStr (str RequestEntityTooLarge) ]})).
Proof.
  intros Hform Hget. destruct (request_form_cases req') as [Hread | Hrefused].
  - left. split; [exact Hread |].
    rewrite (run_calculate_request_read req' _ g Hread).
    rewrite (run_calculate_request_read req form g Hform).
    apply run_calculate_ext, Hget.
  - right. split; [exact Hrefused |].
    apply run_calculate_request_refused, Hrefused.
Qed.

(** X1. Take a request whose form is read and holds a value for each of
    [start], [end] and [mode], and a second request that carries the same
    fields followed by further ones, repeated fields included. Either the
    second form is read too, and then the response is the same, the first
    value of a field being the one used; or the second body is refused, and
    then the response is the error object with the 413 message. *)
Theorem calculate_later_fields_ignored (req req' : Request) (form extra : MultiDict)
    (g : globals) :
  request_form req = Returns form →
  parts req' = form ++ extra →
  is_Some (form_get "start" form) →
  is_Some (form_get "end" form) →
  is_Some (form_get "mode" form) →
  (request_form req' = Returns (form ++ extra) ∧
   run (calculate_request req') g = run (calculate_request req) g) ∨
  (request_form req' = Raises RequestEntityTooLarge ∧
   run (calculate_request req') g
     = (g, Returns {[ "error" := JStr (str RequestEntityTooLarge) ]})).
Proof.
  intros Hform Hparts [s Hs] [e He] [m Hm].
  rewrite <- Hparts. apply (run_calculate_request_cases req req' form g Hform).
  intros key. unfold fields. rewrite !elem_of_cons, elem_of_nil.
  intros [-> | [-> | [-> | []]]]; rewrite Hparts, form_get_app;
    [rewrite Hs | rewrite He | rewrite Hm]; reflexivity.
Qed.

Lemma calculate_later_fields_ignored_witness :
  let form := [("start", "Pisa"); ("end", "Rome"); ("mode", "car")] in
  let extra := [("mode", "train"); ("start", ""); ("via", "Siena")] in
  let req := {| content_type := UrlEncoded; parts := form; body_too_large := false |} in
  let req' :=
    {| content_type := UrlEncoded; parts := form ++ extra; body_too_large := false |} in
  request_form req = Returns form ∧
  run (calculate_request req') module_globals = run (calculate_request req) module_globals.
Proof.
  intros form extra req req'.
  assert (Hform : request_form req = Returns form) by reflexivity.
  split; [exact Hform |].
  destruct (calculate_later_fields_ignored req req' form extra module_globals Hform eq_refl)
    as [[_ Hsame] | [Hrefused _]].
  - eexists; reflexivity.
  - eexists; reflexivity.
  - eexists; reflexivity.
  - exact Hsame.
  - discriminate Hrefused.
Defined.

(** The second case happens: the three fields alone are answered with the
    footprint, the same fields followed by 998 more in a multipart body
    with the 413 message. *)
Example later_fields_refused :
  let req := {| content_type := MultipartFormData;
                parts := [("start", "Porto"); ("end", "Faro"); ("mode", "car")];
                body_too_large := false |} in
  parts crowded_request = parts req ++ replicate 998 ("note", "x") ∧
  run (calculate_request req) module_globals
    = (module_globals,
       Returns (success_response (Some "Porto") (Some "Faro") (Some "car") 12.0)) ∧
  run (calculate_request crowded_request) module_globals
    = (module_globals, Returns (error_response (str RequestEntityTooLarge))).
Proof. repeat split. Qed.

(** X2. Take a request whose form is read, and a second request that
    carries only its [start], [end] and [mode] fields, the others dropped
    wherever they stood. Either the second form is read too, and then the
    response is the same; or the second body is refused, and then the
    response is the error object with the 413 message. *)
Theorem calculate_other_fields_ignored (req req' : Request) (form : list (string * string))
    (g : globals) :
  request_form req = Returns form →
  parts req' = filter (λ kv, kv.1 ∈ fields) form →
  (request_form req' = Returns (filter (λ kv, kv.1 ∈ fields) form) ∧
   run (calculate_request req') g = run (calculate_request req) g) ∨
  (request_form req' = Raises RequestEntityTooLarge ∧
   run (calculate_request req') g
     = (g, Returns {[ "error" := JStr (str RequestEntityTooLarge) ]})).
Proof.
  intros Hform Hparts.
  rewrite <- Hparts. apply (run_calculate_request_cases req req' form g Hform).
  intros key Hkey. rewrite Hparts. apply form_get_filter, Hkey.
Qed.

Lemma calculate_other_fields_ignored_witness :
  let form := [("via", "Siena"); ("start", "Pisa"); ("csrf", "7f3a");
               ("end", "Rome"); ("mode", "car")] in
  let req := {| content_type := MultipartFormData; parts := form;
                body_too_large := false |} in
  let req' :=
    {| content_type := UrlEncoded;
       parts := [("start", "Pisa"); ("end", "Rome"); ("mode", "car")];
       body_too_large := false |} in
  request_form req = Returns form ∧
  run (calculate_request req') module_globals = run (calculate_request req) module_globals.
Proof.
  intros form req req'.
  assert (Hform : request_form req = Returns form) by reflexivity.
  split; [exact Hform |].
  destruct (calculate_other_fields_ignored req req' form module_globals Hform eq_refl)
    as [[_ Hsame] | [Hrefused _]].
  - exact Hsame.
  - discriminate Hrefused.
Defined.



(** ** The footprint the handler reports *)

Lemma hundred_times_factor (m : string) :
  (100 * dict_get (EMISSION_FACTORS module_globals) (Some m) 0.0)%float
    = footprint_of_mode m.
Proof.
  unfold dict_get, footprint_of_mode. rewrite factors_lookup.
  repeat (case_decide; [reflexivity |]). reflexivity.
Qed.

Lemma missing_input_complete (form : MultiDict) :
  ¬ missing_input form →
  ∃ start end_ mode : string,
    (form_get "start" form = Some start ∧ start ≠ "") ∧
    (form_get "end" form = Some end_ ∧ end_ ≠ "") ∧
    (form_get "mode" form = Some mode ∧ mode ≠ "").
Proof.
  intros Hm. rewrite <- guard_iff in Hm. apply not_true_is_false in Hm.
  rewrite !orb_false_iff, !negb_false_iff, !truthy_true_iff in Hm.
  destruct Hm as [[(s & Hs & Hs') (e & He & He')] (m & Hm & Hm')].
  exists s, e, m. auto.
Qed.

(** X4. For a request with the three fields present and non-empty, the
    reported footprint is fixed by [mode] alone: 12.0 for car,
    6.800000000000001 for bus (the binary64 product of 100 and 0.068 is not
    the double 6.8), 4.5 for train and 0.0 for every other mode. *)
Theorem calculate_footprint_by_mode (form : MultiDict) (start end_ mode : string) :
  form_get "start" form = Some start → start ≠ "" →
  form_get "end" form = Some end_ → end_ ≠ "" →
  form_get "mode" form = Some mode → mode ≠ "" →
  run (calculate form) module_globals =
    (module_globals,
     Returns (success_response (Some start) (Some end_) (Some mode)
                (footprint_of_mode mode))) ∧
  (footprint_of_mode "bus" =? 6.8)%float = false.
Proof.
  intros Hs Hs' He He' Hm Hm'. split; [| reflexivity].
  rewrite (run_calculate_complete form start end_ mode) by assumption.
  rewrite hundred_times_factor. reflexivity.
Qed.

Lemma calculate_footprint_by_mode_witness :
  let form := [("start", "Brest"); ("end", "Nancy"); ("mode", "bus")] in
  run (calculate form) module_globals =
    (module_globals,
     Returns (success_response (Some "Brest") (Some "Nancy") (Some "bus")
                6.800000000000001)) ∧
  (footprint_of_mode "bus" =? 6.8)%float = false.
Proof.
  intros form.
  apply (calculate_footprint_by_mode form "Brest" "Nancy" "bus");
    first [reflexivity | discriminate].
Defined.

(** X5. Whatever the form, a response that carries a [carbon_footprint]
    carries a float between 0.0 and 12.0, and [distance] 100 with it. *)
Theorem calculate_footprint_range (form : MultiDict) (g' : globals)
    (r : gmap string json) (v : json) :
  run (calculate form) module_globals = (g', Returns r) →
  r !! "carbon_footprint" = Some v →
  ∃ f : float,
    v = JFloat f ∧ (0 <=? f)%float = true ∧ (f <=? 12)%float = true ∧
    r !! "distance" = Some (JInt 100).
Proof.
  intros Hrun Hv. destruct (missing_input_dec form) as [Hm | Hm].
  - rewrite run_calculate_missing in Hrun by exact Hm.
    injection Hrun as _ <-.
    rewrite error_response_fields in Hv; discriminate.
  - destruct (missing_input_complete form Hm)
      as (s & e & m & [Hs Hs'] & [He He'] & [Hmo Hmo']).
    rewrite (run_calculate_complete form s e m) in Hrun by assumption.
    rewrite hundred_times_factor in Hrun. injection Hrun as _ <-.
    destruct (success_response_fields (Some s) (Some e) (Some m) (footprint_of_mode m))
      as (_ & _ & _ & Hd & Hcf).
    rewrite Hcf in Hv. injection Hv as <-.
    exists (footprint_of_mode m). split; [reflexivity |].
    split; [| split; [| exact Hd]];
      unfold footprint_of_mode; repeat case_decide; reflexivity.
Qed.

Lemma calculate_footprint_range_witness :
  let form := [("start", "Turku"); ("end", "Oulu"); ("mode", "train")] in
  let r := success_response (Some "Turku") (Some "Oulu") (Some "train") 4.5 in
  run (calculate form) module_globals = (module_globals, Returns r) ∧
  r !! "carbon_footprint" = Some (JFloat 4.5) ∧
  ∃ f : float,
    JFloat 4.5 = JFloat f ∧ (0 <=? f)%float = true ∧ (f <=? 12)%float = true ∧
    r !! "distance" = Some (JInt 100).
Proof.
  intros form r.
  assert (Hrun : run (calculate form) module_globals = (module_globals, Returns r))
    by reflexivity.
  assert (Hcf : r !! "carbon_footprint" = Some (JFloat 4.5))
    by apply success_response_fields.
  split; [exact Hrun |]. split; [exact Hcf |].
  exact (calculate_footprint_range form module_globals r (JFloat 4.5) Hrun Hcf).
Defined.

(** X6. The places play no part in the figures: two requests that pass
    validation and name the same mode get the same [distance] and the same
    [carbon_footprint], whatever their [start] and [end], in every state of
    the table. *)
Theorem calculate_route_independent (form form' : MultiDict) (g : globals) :
  ¬ missing_input form → ¬ missing_input form' →
  form_get "mode" form = form_get "mode" form' →
  ∃ r r' : gmap string json,
    run (calculate form) g = (g, Returns r) ∧
    run (calculate form') g = (g, Returns r') ∧
    r !! "distance" = r' !! "distance" ∧
    r !! "carbon_footprint" = r' !! "carbon_footprint" ∧
    is_Some (r !! "carbon_footprint").
Proof.
  intros Hm Hm' Hmode.
  do 2 eexists.
  split; [apply run_calculate_present, Hm |].
  split; [apply run_calculate_present, Hm' |].
  rewrite <- Hmode.
  match goal with
  | |- success_response ?s ?e ?m ?c !! _ = success_response ?s' ?e' ?m' ?c' !! _ ∧ _ =>
      destruct (success_response_fields s e m c) as (_ & _ & _ & Hd & Hc);
      destruct (success_response_fields s' e' m' c') as (_ & _ & _ & Hd' & Hc')
  end.
  rewrite Hd, Hd', Hc, Hc'. repeat split. eexists; reflexivity.
Qed.

Lemma calculate_route_independent_witness :
  let form := [("start", "Vigo"); ("end", "Leon"); ("mode", "car")] in
  let form' := [("mode", "car"); ("end", "Zadar"); ("start", "Split")] in
  ∃ r r' : gmap string json,
    run (calculate form) module_globals = (module_globals, Returns r) ∧
    run (calculate form') module_globals = (module_globals, Returns r') ∧
    r !! "distance" = r' !! "distance" ∧
    r !! "carbon_footprint" = r' !! "carbon_footprint" ∧
    is_Some (r !! "carbon_footprint").
Proof.
  intros form form'.
  apply (calculate_route_independent form form' module_globals).
  - intros [H | [H | H]]; destruct H as [H | H]; discriminate H.
  - intros [H | [H | H]]; destruct H as [H | H]; discriminate H.
  - reflexivity.
Defined.

(** ** The estimator on modes whose factor is zero *)

Lemma SFeqb_finite_refl (s : bool) (m : positive) (e : Z) :
  SFeqb (S754_finite s m e) (S754_finite s m e) = true.
Proof.
  unfold SFeqb, SFcompare.
  destruct s; rewrite Z.compare_refl;
    change (Pos.compare_cont Eq m m) with (Pos.compare m m);
    rewrite Pos.compare_refl; reflexivity.
Qed.

(** A finite float times 0.0 is a zero of its sign. *)
Lemma mul_zero_finite (x : float) :
  is_finite x = true → (x * 0 =? 0)%float = true.
Proof.
  unfold is_finite, is_nan, is_infinity.
  rewrite !FloatAxioms.eqb_spec, FloatAxioms.abs_spec, FloatAxioms.mul_spec.
  change (Prim2SF 0) with (S754_zero false).
  change (Prim2SF infinity) with (S754_infinity false).
  destruct (Prim2SF x) as [s | s | | s m e]; simpl; intros H;
    first [reflexivity | discriminate H | destruct s; discriminate H].
Qed.

(** An infinity or a NaN times 0.0 is NaN. *)
Lemma mul_zero_not_finite (x : float) :
  is_finite x = false → (x * 0)%float = nan.
Proof.
  unfold is_finite, is_nan, is_infinity.
  rewrite !FloatAxioms.eqb_spec, FloatAxioms.abs_spec. intros H.
  apply Prim2SF_inj. rewrite FloatAxioms.mul_spec.
  change (Prim2SF 0) with (S754_zero false).
  change (Prim2SF nan) with S754_nan.
  change (Prim2SF infinity) with (S754_infinity false) in H.
  destruct (Prim2SF x) as [s | s | | s m e]; simpl in *;
    try reflexivity; try discriminate H.
  rewrite SFeqb_finite_refl in H. destruct s; discriminate H.
Qed.

(** X7. For every mode other than car, bus and train (bicycle, walking and
    all strings the table does not have), the estimator applied to a finite
    [float] distance gives a zero, which [==] 0.0; applied to an infinite or
    NaN distance it gives NaN, not 0.0. *)
Theorem estimate_zero_factor (m : string) (x : float) :
  m ∉ ["car"; "bus"; "train"] →
  ∃ z : float,
    run (estimate (Some m) (PyFloat x)) module_globals = (module_globals, Returns z) ∧
    (is_finite x = true → (z =? 0)%float = true) ∧
    (is_finite x = false → z = nan ∧ (z =? 0)%float = false).
Proof.
  intros Hm. rewrite !not_elem_of_cons in Hm. destruct Hm as (Hc & Hb & Ht & _).
  assert (Hf : dict_get (EMISSION_FACTORS module_globals) (Some m) 0.0%float = 0%float).
  { unfold dict_get. rewrite factors_lookup.
    rewrite !decide_False by assumption. repeat case_decide; reflexivity. }
  exists (x * 0)%float. rewrite run_estimate, Hf. split; [reflexivity |].
  split; [apply mul_zero_finite |].
  intros Hx. rewrite (mul_zero_not_finite x Hx). split; reflexivity.
Qed.

Lemma estimate_zero_factor_witness :
  ("tram" ∉ ["car"; "bus"; "train"]) ∧
  ∃ z : float,
    run (estimate (Some "tram") (PyFloat infinity)) module_globals
      = (module_globals, Returns z) ∧
    (is_finite infinity = true → (z =? 0)%float = true) ∧
    (is_finite infinity = false → z = nan ∧ (z =? 0)%float = false).
Proof.
  assert (Hm : "tram" ∉ ["car"; "bus"; "train"]).
  { rewrite !not_elem_of_cons. repeat split; try discriminate. apply not_elem_of_nil. }
  split; [exact Hm |].
  apply (estimate_zero_factor "tram" infinity Hm).
Defined.

(** ** The page and the handler together *)

Lemma mode_options_recognized (mode : string) :
  mode ∈ mode_options →
  mode ≠ "" ∧ ∃ f : float, EMISSION_FACTORS module_globals !! mode = Some f.
Proof.
  unfold mode_options. rewrite !elem_of_cons, elem_of_nil.
  intros [-> | [-> | [-> | [-> | [-> | []]]]]];
    (split; [discriminate | eexists; reflexivity]).
Qed.

(** X8. The options of the page's mode select are exactly the keys of the
    factor table, so a request the form can submit ([start] and [end]
    non-empty, [mode] one of the options) is never refused and never falls
    back to the default factor: the footprint is 100 times the factor the
    table stores for the mode. *)
Theorem page_request_accepted (start end_ mode : string) :
  start ≠ "" → end_ ≠ "" → mode ∈ mode_options →
  list_to_set mode_options = dom (EMISSION_FACTORS module_globals) ∧
  ∃ f : float,
    EMISSION_FACTORS module_globals !! mode = Some f ∧
    run (calculate (form_data start end_ mode)) module_globals =
      (module_globals,
       Returns (success_response (Some start) (Some end_) (Some mode) (100 * f)%float)).
Proof.
  intros Hs He Hmode.
  split.
  { rewrite factors_dom. unfold mode_options. simpl. set_solver. }
  destruct (mode_options_recognized mode Hmode) as [Hne [f Hf]].
  exists f. split; [exact Hf |].
  rewrite (run_calculate_complete _ start end_ mode) by (assumption || reflexivity).
  unfold dict_get. rewrite Hf. reflexivity.
Qed.

Lemma page_request_accepted_witness :
  ("Namur" ≠ "" ∧ "Arlon" ≠ "" ∧ "bicycle" ∈ mode_options) ∧
  ∃ f : float,
    EMISSION_FACTORS module_globals !! "bicycle" = Some f ∧
    run (calculate (form_data "Namur" "Arlon" "bicycle")) module_globals =
      (module_globals,
       Returns (success_response (Some "Namur") (Some "Arlon") (Some "bicycle")
                  (100 * f)%float)).
Proof.
  assert (Hmode : "bicycle" ∈ mode_options).
  { unfold mode_options. do 3 (apply elem_of_cons; right).
    apply elem_of_cons; left. reflexivity. }
  assert (Hs : "Namur" ≠ "") by discriminate.
  assert (He : "Arlon" ≠ "") by discriminate.
  split; [repeat split; assumption |].
  exact (proj2 (page_request_accepted "Namur" "Arlon" "bicycle" Hs He Hmode)).
Defined.

Lemma toFixed2_footprint (mode : string) :
  toFixed2 (footprint_of_mode mode) = Some (footprint_text mode).
Proof.
  unfold footprint_of_mode, footprint_text. repeat case_decide; reflexivity.
Qed.

Lemma innerHTML_success_response (start end_ mode : string) (cf : float) (text : string) :
  toFixed2 cf = Some text →
  innerHTML (success_response (Some start) (Some end_) (Some mode) cf)
    = Some (result_html start end_ mode "100" text).
Proof.
  intros Htext. unfold innerHTML, on_data.
  destruct (success_response_fields (Some start) (Some end_) (Some mode) cf)
    as (Hs & He & Hm & Hd & Hc).
  rewrite success_response_no_error, Hs, He, Hm, Hd, Hc. simpl.
  rewrite Htext. reflexivity.
Qed.

(** X9. For every form with a missing input, in every state of the table,
    the page ends up showing [Error: Missing required inputs!]. *)
Theorem submit_missing_input (form : MultiDict) (g : globals) :
  missing_input form →
  submit form g = Some "Error: Missing required inputs!".
Proof.
  intros Hm. unfold submit. rewrite run_calculate_missing by exact Hm.
  unfold innerHTML, on_data, error_response.
  rewrite lookup_singleton_eq. reflexivity.
Qed.

Lemma submit_missing_input_witness :
  let form := [("start", "Delft"); ("mode", "walking")] in
  missing_input form ∧
  submit form module_globals = Some "Error: Missing required inputs!".
Proof.
  intros form.
  assert (Hm : missing_input form) by (right; left; left; reflexivity).
  split; [exact Hm |].
  apply (submit_missing_input form module_globals Hm).
Defined.

(** X10. For a request with the three fields present and non-empty, the
    page shows the result block: the submitted [start], [end] and [mode]
    put into the markup as they are, with no escaping, the distance [100],
    and the footprint with two decimals, [12.00] for car, [6.80] for bus,
    [4.50] for train and [0.00] for any other mode. *)
Theorem submit_complete (form : MultiDict) (start end_ mode : string) :
  form_get "start" form = Some start → start ≠ "" →
  form_get "end" form = Some end_ → end_ ≠ "" →
  form_get "mode" form = Some mode → mode ≠ "" →
  submit form module_globals
    = Some (result_html start end_ mode "100" (footprint_text mode)).
Proof.
  intros Hs Hs' He He' Hm Hm'. unfold submit.
  rewrite (run_calculate_complete form start end_ mode) by assumption.
  rewrite hundred_times_factor.
  apply innerHTML_success_response, toFixed2_footprint.
Qed.

Lemma submit_complete_witness :
  let form := form_data "<b>Lugo</b>" "Cadiz" "bus" in
  submit form module_globals
    = Some (result_html "<b>Lugo</b>" "Cadiz" "bus" "100" "6.80").
Proof.
  intros form.
  apply (submit_complete form "<b>Lugo</b>" "Cadiz" "bus");
    first [reflexivity | discriminate].
Defined.

(** X11. Served by this handler with the table as the module builds it, the
    page never ends in its [.catch] branch: for every form it shows either
    the error line or the result block, never
    [Error in calculation process!]. *)
Theorem submit_never_fails (form : MultiDict) :
  ∃ html : string,
    submit form module_globals = Some html ∧
    html ≠ on_error ∧
    (missing_input form ↔ html = "Error: Missing required inputs!").
Proof.
  unfold submit. destruct (missing_input_dec form) as [Hm | Hm].
  - rewrite run_calculate_missing by exact Hm.
    exists "Error: Missing required inputs!".
    split; [reflexivity |]. split; [discriminate |]. tauto.
  - destruct (missing_input_complete form Hm)
      as (s & e & m & [Hs Hs'] & [He He'] & [Hmo Hmo']).
    rewrite (run_calculate_complete form s e m) by assumption.
    rewrite hundred_times_factor.
    rewrite (innerHTML_success_response s e m _ _ (toFixed2_footprint m)).
    eexists. split; [reflexivity |].
    split; [discriminate |].
    split; [contradiction | discriminate].
Qed.

(** X12. What the page makes of an exception the handler catches: the
    [except] block answers [{"error": str(e)}], and the page shows
    [Error: ] followed by the message when the message is not empty. When
    it is empty the test [if (data.error)] fails, the result branch reads
    [toFixed] off the missing [carbon_footprint], and the page shows
    [Error in calculation process!] instead. *)
Theorem innerHTML_of_exception (body : M (gmap string json)) (g g' : globals) (e : exn) :
  run body g = (g', Raises e) →
  ∃ data : gmap string json,
    run (try_except body calculate_except) g = (g', Returns data) ∧
    innerHTML data
      = Some (if decide (str e = "") then on_error else "Error: " +:+ str e).
Proof.
  intros Hbody. exists {[ "error" := JStr (str e) ]}.
  split; [rewrite (run_try_raises _ _ _ _ _ Hbody); reflexivity |].
  unfold innerHTML, on_data. rewrite lookup_singleton_eq. simpl.
  case_decide as Hstr.
  - rewrite Hstr. simpl.
    rewrite !lookup_singleton_ne by discriminate. reflexivity.
  - apply String.eqb_neq in Hstr. rewrite Hstr. reflexivity.
Qed.

Lemma innerHTML_of_exception_witness :
  let body : M (gmap string json) := raise (ValueError "") in
  run body module_globals = (module_globals, Raises (ValueError "")) ∧
  ∃ data : gmap string json,
    run (try_except body calculate_except) module_globals
      = (module_globals, Returns data) ∧
    innerHTML data = Some "Error in calculation process!".
Proof.
  intros body.
  assert (Hbody : run body module_globals = (module_globals, Raises (ValueError "")))
    by reflexivity.
  split; [exact Hbody |].
  exact (innerHTML_of_exception body module_globals module_globals (ValueError "") Hbody).
Defined.

(** ** The order of the fields *)

Lemma form_get_Permutation (key : string) (form form' : list (string * string)) :
  NoDup form.*1 → form ≡ₚ form' → form_get key form' = form_get key form.
Proof.
  intros Hnd Hperm. induction Hperm as [| [k v] l l' Hp IH | [k1 v1] [k2 v2] l | l l' l'' Hp IH Hp' IH'].
  - reflexivity.
  - simpl. rewrite fmap_cons in Hnd. apply NoDup_cons in Hnd as [_ Hnd].
    rewrite (IH Hnd). reflexivity.
  - simpl. rewrite !fmap_cons in Hnd. simpl in Hnd.
    apply NoDup_cons in Hnd as [Hin _]. rewrite not_elem_of_cons in Hin.
    destruct Hin as [Hne _].
    destruct (String.eqb k1 key) eqn:H1, (String.eqb k2 key) eqn:H2; try reflexivity.
    apply String.eqb_eq in H1, H2. congruence.
  - rewrite IH', IH; [reflexivity | exact Hnd |].
    rewrite <- Hp. exact Hnd.
Qed.

(** X13. When no field name is submitted twice, the order in which the
    fields arrive does not matter: any rearrangement of the form gets the
    same response. *)
Theorem calculate_field_order (form form' : list (string * string)) (g : globals) :
  NoDup form.*1 → form ≡ₚ form' →
  run (calculate form') g = run (calculate form) g.
Proof.
  intros Hnd Hperm. apply run_calculate_ext.
  intros key _. apply form_get_Permutation; assumption.
Qed.

Lemma calculate_field_order_witness :
  let form := [("start", "Gavle"); ("end", "Umea"); ("mode", "train")] in
  let form' := [("mode", "train"); ("start", "Gavle"); ("end", "Umea")] in
  NoDup form.*1 ∧ form ≡ₚ form' ∧
  run (calculate form') module_globals = run (calculate form) module_globals.
Proof.
  intros form form'.
  assert (Hnd : NoDup form.*1).
  { simpl. repeat (apply NoDup_cons; split; [rewrite ?not_elem_of_cons;
      repeat split; try discriminate; apply not_elem_of_nil |]). apply NoDup_nil_2. }
  assert (Hperm : form ≡ₚ form').
  { unfold form, form'.
    etransitivity; [apply perm_skip, perm_swap | apply perm_swap]. }
  split; [exact Hnd |]. split; [exact Hperm |].
  apply (calculate_field_order form form' module_globals Hnd Hperm).
Defined.
